(** * Crumble Bakery implementation documentation: a shallow embedding

    The development follows [.dev-team/implementations/project.py]:
    the class [CrumbleBakeryImplementation] with its two class
    attributes, the four instance attributes set by [__init__], the six
    public methods, and the block run under [__main__].

    Python values are embedded as a small universe [Value]; a dict is an
    association list in insertion order, which is the order in which
    Python iterates it.  Methods are computations in a state-and-error
    monad [Py] over a [World] that holds the class attributes, the
    attributes of the instance and the text written to standard output.

    Every method builds its result afresh from a dict or list display,
    so a result shares no object with the class attributes or with an
    earlier result; results are therefore embedded by value.  The
    instance is a record of the four attributes that [__init__] assigns,
    with the types it gives them.

    A Python [str] is embedded as the UTF-8 bytes of its text.  Standard
    output has an encoding, and [print] raises [UnicodeEncodeError] on a
    character the encoding lacks; formatting an integer raises
    [ValueError] beyond the interpreter's limit of 4300 digits.  The
    case conversion of [str.title] and the escapes of [repr] are those
    of ASCII text, which is all the program applies them to. *)

From Stdlib Require Import ZArith List String Ascii Bool Lia DecimalString.
Import ListNotations.
Local Open Scope string_scope.
Local Open Scope Z_scope.

(** ** Python values *)

#[local] Set Warnings "-register-all".

Inductive Value : Type :=
| VBool (b : bool)
| VInt (z : Z)
| VStr (s : string)
| VList (l : list Value)
| VDict (d : list (string * Value)).

Inductive Exn : Type :=
| KeyError (key : string)
| TypeError (what : string)
| ValueError (what : string)
| UnicodeEncodeError (code_point : N).

Inductive result (A : Type) : Type :=
| Ok (a : A)
| Raise (e : Exn).

Arguments Ok {A} a.
Arguments Raise {A} e.

(** Lookup in a dict: the first binding of the key. *)
Fixpoint dict_get (d : list (string * Value)) (k : string) : option Value :=
  match d with
  | [] => None
  | (k', v) :: d' => if String.eqb k' k then Some v else dict_get d' k
  end.

(** [v[k]] with a string key. *)
Definition getitem (v : Value) (k : string) : result Value :=
  match v with
  | VDict d =>
      match dict_get d k with
      | Some x => Ok x
      | None => Raise (KeyError k)
      end
  | _ => Raise (TypeError "subscript")
  end.

(** [v.values()] and [v.items()]. *)
Definition values (v : Value) : result (list Value) :=
  match v with
  | VDict d => Ok (map snd d)
  | _ => Raise (TypeError "values")
  end.

Definition items (v : Value) : result (list (string * Value)) :=
  match v with
  | VDict d => Ok d
  | _ => Raise (TypeError "items")
  end.

(** Truth value of an object, as [all], [not] and [if] test it. *)
Definition truthy (v : Value) : bool :=
  match v with
  | VBool b => b
  | VInt z => negb (z =? 0)
  | VStr s => negb (String.eqb s "")
  | VList l => match l with [] => false | _ => true end
  | VDict d => match d with [] => false | _ => true end
  end.

(** The builtin [all]. *)
Definition all (l : list Value) : bool := forallb truthy l.

(** ** Text and its encoding *)

(** The code points of a text given by its UTF-8 bytes (well-formed, as
    every text of the program is). *)
Fixpoint code_points (s : string) : list N :=
  match s with
  | EmptyString => []
  | String c s1 =>
      let b := N_of_ascii c in
      if (b <? 128)%N then b :: code_points s1
      else if (b <? 224)%N then
        match s1 with
        | String c1 s2 =>
            ((b - 192) * 64 + (N_of_ascii c1 - 128))%N :: code_points s2
        | _ => [b]
        end
      else if (b <? 240)%N then
        match s1 with
        | String c1 (String c2 s3) =>
            ((b - 224) * 4096 + (N_of_ascii c1 - 128) * 64
             + (N_of_ascii c2 - 128))%N :: code_points s3
        | _ => [b]
        end
      else
        match s1 with
        | String c1 (String c2 (String c3 s4)) =>
            ((b - 240) * 262144 + (N_of_ascii c1 - 128) * 4096
             + (N_of_ascii c2 - 128) * 64 + (N_of_ascii c3 - 128))%N
            :: code_points s4
        | _ => [b]
        end
  end.

(** The encoding of a text stream: every codec a stream can have encodes
    the ASCII characters; [beyond_ascii] tells which other code points
    it encodes. *)
Record Encoding : Type := mkEncoding {
  beyond_ascii : N -> bool
}.

Definition can_encode (e : Encoding) (cp : N) : bool :=
  (cp <? 128)%N || beyond_ascii e cp.


Definition latin_1 : Encoding := mkEncoding (fun cp => (cp <? 256)%N).

(** UTF-8 encodes every code point but the surrogates. *)
Definition utf_8 : Encoding :=
  mkEncoding (fun cp =>
    (cp <? 1114112)%N && negb ((55296 <=? cp)%N && (cp <=? 57343)%N)).

(** The first character of a text that the encoding lacks, if any. *)
Definition unencodable (e : Encoding) (s : string) : option N :=
  find (fun cp => negb (can_encode e cp)) (code_points s).

(** ** The world: class attributes, instance attributes, standard output *)

Record Instance : Type := mkInstance {
  file_count : Z;
  max_lines_per_file : Z;
  uses_javascript : bool;
  uses_external_libraries : bool
}.

Record World : Type := mkWorld {
  COLOR_PALETTE : Value;
  BREAKPOINTS : Value;
  self : Instance;
  stdout : string;
  stdout_encoding : Encoding
}.

(** ** The monad of Python computations *)

Definition Py (A : Type) : Type := World -> result A * World.

Definition ret {A} (a : A) : Py A := fun w => (Ok a, w).

Definition bind {A B} (m : Py A) (f : A -> Py B) : Py B :=
  fun w =>
    match m w with
    | (Ok a, w') => f a w'
    | (Raise e, w') => (Raise e, w')
    end.

Definition lift {A} (r : result A) : Py A := fun w => (r, w).

Declare Scope py_scope.
Delimit Scope py_scope with py.
Notation "x <- m ;; k" := (bind m (fun x => k))
  (at level 61, m at next level, right associativity) : py_scope.
Notation "m ;; k" := (bind m (fun _ => k))
  (at level 61, right associativity) : py_scope.
Local Open Scope py_scope.

(** Reading and writing the attributes of [self]. *)
Definition getattr {A} (field : Instance -> A) : Py A :=
  fun w => (Ok (field (self w)), w).

Definition set_self (f : Instance -> Instance) : Py unit :=
  fun w => (Ok tt, mkWorld (COLOR_PALETTE w) (BREAKPOINTS w) (f (self w))
                     (stdout w) (stdout_encoding w)).

Definition set_file_count (z : Z) : Py unit :=
  set_self (fun i => mkInstance z (max_lines_per_file i)
                       (uses_javascript i) (uses_external_libraries i)).
Definition set_max_lines_per_file (z : Z) : Py unit :=
  set_self (fun i => mkInstance (file_count i) z
                       (uses_javascript i) (uses_external_libraries i)).
Definition set_uses_javascript (b : bool) : Py unit :=
  set_self (fun i => mkInstance (file_count i) (max_lines_per_file i)
                       b (uses_external_libraries i)).
Definition set_uses_external_libraries (b : bool) : Py unit :=
  set_self (fun i => mkInstance (file_count i) (max_lines_per_file i)
                       (uses_javascript i) b).

(** [print(s)]: the text and a newline go to standard output; when the
    stream's encoding lacks a character of the text, nothing is written
    and [UnicodeEncodeError] is raised. *)
Definition newline : string := String (ascii_of_nat 10) "".

Definition print (s : string) : Py unit :=
  fun w =>
    match unencodable (stdout_encoding w) s with
    | None =>
        (Ok tt, mkWorld (COLOR_PALETTE w) (BREAKPOINTS w) (self w)
                  (stdout w ++ s ++ newline) (stdout_encoding w))
    | Some cp => (Raise (UnicodeEncodeError cp), w)
    end.

(** ** class CrumbleBakeryImplementation *)

(** The class body binds the two class attributes. *)
Definition class_body : Py unit :=
  fun w =>
    (Ok tt,
     mkWorld
       (VDict [("background", VStr "#f8f5f2");
               ("primary_text", VStr "#2c1810");
               ("accent", VStr "#d4941e")])
       (VDict [("mobile", VStr "0px - 479px");
               ("desktop", VStr "480px and up")])
       (self w) (stdout w) (stdout_encoding w)).

Definition __init__ : Py unit :=
  set_file_count 2 ;;
  set_max_lines_per_file 200 ;;
  set_uses_javascript false ;;
  set_uses_external_libraries false.

Definition validate_architecture_compliance : Py Value :=
  fc <- getattr file_count ;;
  js <- getattr uses_javascript ;;
  ext <- getattr uses_external_libraries ;;
  let compliance_check :=
    VDict [("file_count", VBool (fc =? 2));
           ("no_javascript", VBool (negb js));
           ("no_external_libs", VBool (negb ext));
           ("semantic_html", VBool true);
           ("mobile_first_css", VBool true);
           ("single_media_query", VBool true);
           ("form_validation", VBool true);
           ("accessibility_features", VBool true)] in
  ret compliance_check.

Definition get_html_structure : Py Value :=
  ret (VDict
    [("doctype", VStr "HTML5");
     ("html_lang", VStr "en");
     ("head", VDict
        [("charset", VStr "UTF-8");
         ("viewport", VStr "width=device-width, initial-scale=1.0");
         ("stylesheet", VStr "style.css (relative path)")]);
     ("body", VDict
        [("header", VDict
            [("h1", VStr "Crumble Bakery (brand name)")]);
         ("main", VDict
            [("h2", VStr "Coming Soon");
             ("form", VDict
                [("method", VStr "POST");
                 ("input", VDict
                    [("type", VStr "email");
                     ("required", VBool true);
                     ("accessibility", VStr "aria-label and visually-hidden label")]);
                 ("button", VDict
                    [("type", VStr "submit");
                     ("text", VStr "Notify Me")])])]);
         ("footer", VDict
            [("social_links", VList [VStr "Instagram"; VStr "Facebook"; VStr "Twitter"]);
             ("contact_info", VDict
                [("email", VStr "hello@crumblebakery.com");
                 ("address", VStr "123 Baker Street, Sweet City, SC 12345")])])])]).

Definition get_css_architecture : Py Value :=
  ret (VDict
    [("approach", VStr "Mobile-First Responsive Design");
     ("layout_engine", VStr "CSS Flexbox");
     ("reset", VStr "Universal box-sizing and margin/padding reset");
     ("centering", VDict
        [("vertical", VStr "min-height: 100vh + justify-content: center");
         ("horizontal", VStr "align-items: center")]);
     ("typography", VStr "System font stack (system-ui, sans-serif)");
     ("color_management", VStr "CSS Custom Properties (:root variables)");
     ("responsive_strategy", VDict
        [("mobile", VStr "Default styles (0-479px)");
         ("desktop", VStr "Single @media query at 480px+");
         ("form_layout", VDict
            [("mobile", VStr "flex-direction: column");
             ("desktop", VStr "flex-direction: row")])]);
     ("interaction_states", VDict
        [("hover_effects", VStr "Color changes only (no transitions)");
         ("focus_states", VStr "Border and box-shadow for accessibility")])]).

Definition get_accessibility_features : Py Value :=
  ret (VList
    [VStr "Semantic HTML5 elements (header, main, footer, address)";
     VStr "Proper form labeling with visually-hidden labels";
     VStr "ARIA labels for screen readers";
     VStr "Focus states for keyboard navigation";
     VStr "High contrast color palette for readability";
     VStr "Responsive design for various screen sizes";
     VStr "HTML5 form validation with required attributes"]).

Definition get_performance_optimizations : Py Value :=
  ret (VList
    [VStr "No external font requests (system font stack)";
     VStr "No JavaScript reduces bundle size";
     VStr "Minimal CSS with efficient selectors";
     VStr "CSS custom properties for maintainable theming";
     VStr "Single media query reduces complexity";
     VStr "Optimized image-free design with CSS styling";
     VStr "Clean HTML structure for fast parsing"]).

Definition generate_implementation_report : Py Value :=
  ac <- validate_architecture_compliance ;;
  hs <- get_html_structure ;;
  ca <- get_css_architecture ;;
  af <- get_accessibility_features ;;
  po <- get_performance_optimizations ;;
  fc <- getattr file_count ;;
  ret (VDict
    [("project_name", VStr "Crumble Bakery Coming Soon Page");
     ("implementation_date", VStr "2026-02-03");
     ("architecture_compliance", ac);
     ("html_structure", hs);
     ("css_architecture", ca);
     ("accessibility_features", af);
     ("performance_optimizations", po);
     ("file_statistics", VDict
        [("total_files", VInt fc);
         ("html_lines", VStr "~50 lines");
         ("css_lines", VStr "~180 lines");
         ("total_lines", VStr "~230 lines (within 400 line limit)")]);
     ("browser_compatibility", VStr "Modern browsers with CSS Flexbox support");
     ("deployment_ready", VBool true)]).

(** The public operations of an instance, and a call of one of them. *)
Inductive Op : Type :=
| OpValidateArchitectureCompliance
| OpGetHtmlStructure
| OpGetCssArchitecture
| OpGetAccessibilityFeatures
| OpGetPerformanceOptimizations
| OpGenerateImplementationReport.

Definition call (op : Op) : Py Value :=
  match op with
  | OpValidateArchitectureCompliance => validate_architecture_compliance
  | OpGetHtmlStructure => get_html_structure
  | OpGetCssArchitecture => get_css_architecture
  | OpGetAccessibilityFeatures => get_accessibility_features
  | OpGetPerformanceOptimizations => get_performance_optimizations
  | OpGenerateImplementationReport => generate_implementation_report
  end.

(** A caller that invokes operations one after the other and drops the
    results; it stops at the first exception. *)
Fixpoint call_all (ops : list Op) : Py unit :=
  match ops with
  | [] => ret tt
  | op :: ops' => call op ;; call_all ops'
  end.

(** ** Strings: [str.replace], [str.title], [str()] and [repr()] *)

(** [s.replace(old, new)] for one-character [old] and [new]. *)
Fixpoint replace (old new : ascii) (s : string) : string :=
  match s with
  | EmptyString => EmptyString
  | String c s' =>
      String (if Ascii.eqb c old then new else c) (replace old new s')
  end.

Definition islower (c : ascii) : bool :=
  let n := nat_of_ascii c in (97 <=? n)%nat && (n <=? 122)%nat.

Definition isupper (c : ascii) : bool :=
  let n := nat_of_ascii c in (65 <=? n)%nat && (n <=? 90)%nat.

Definition upper (c : ascii) : ascii :=
  if islower c then ascii_of_nat (nat_of_ascii c - 32) else c.

Definition lower (c : ascii) : ascii :=
  if isupper c then ascii_of_nat (nat_of_ascii c + 32) else c.

(** [s.title()] on ASCII text: a cased character that follows an uncased
    one is put in upper case, every other cased character in lower case. *)
Fixpoint title_from (previous_is_cased : bool) (s : string) : string :=
  match s with
  | EmptyString => EmptyString
  | String c s' =>
      if islower c then
        String (if previous_is_cased then c else upper c) (title_from true s')
      else if isupper c then
        String (if previous_is_cased then lower c else c) (title_from true s')
      else
        String c (title_from false s')
  end.

Definition title (s : string) : string := title_from false s.

Fixpoint contains (c : ascii) (s : string) : bool :=
  match s with
  | EmptyString => false
  | String c' s' => Ascii.eqb c' c || contains c s'
  end.

Definition hex_digit (n : nat) : ascii :=
  if (n <? 10)%nat then ascii_of_nat (48 + n) else ascii_of_nat (87 + n).

Definition quote1 : ascii := ascii_of_nat 39.
Definition quote2 : ascii := ascii_of_nat 34.
Definition backslash : ascii := ascii_of_nat 92.

(** One character of [repr(s)], inside the quotes [q], for ASCII text. *)
Definition repr_char (q c : ascii) : string :=
  let n := nat_of_ascii c in
  if Ascii.eqb c q || Ascii.eqb c backslash then String backslash (String c "")
  else if (n =? 9)%nat then String backslash "t"
  else if (n =? 10)%nat then String backslash "n"
  else if (n =? 13)%nat then String backslash "r"
  else if (n <? 32)%nat || (n =? 127)%nat then
    String backslash
      (String "x" (String (hex_digit (n / 16)) (String (hex_digit (n mod 16)) "")))
  else String c "".

Fixpoint repr_chars (q : ascii) (s : string) : string :=
  match s with
  | EmptyString => EmptyString
  | String c s' => repr_char q c ++ repr_chars q s'
  end.

(** [repr] of a string of ASCII text: single quotes, unless the text has
    a single quote and no double quote. *)
Definition repr_str (s : string) : string :=
  let q := if contains quote1 s && negb (contains quote2 s) then quote2 else quote1 in
  String q (repr_chars q s ++ String q "").

Fixpoint join (sep : string) (l : list string) : string :=
  match l with
  | [] => ""
  | [x] => x
  | x :: l' => x ++ sep ++ join sep l'
  end.

(** The decimal numeral of an integer, and the number of its digits. *)
Definition decimal (z : Z) : string := NilZero.string_of_int (Z.to_int z).

Definition digits (z : Z) : nat :=
  match Z.to_int z with
  | Decimal.Pos d => Decimal.nb_digits d
  | Decimal.Neg d => Decimal.nb_digits d
  end.

(** The interpreter's default limit on integer-to-text conversion. *)
Definition int_max_str_digits : Z := 4300.

Definition too_long (z : Z) : bool := int_max_str_digits <? Z.of_nat (digits z).

(** [str(z)] for an integer: [ValueError] beyond the digit limit. *)
Definition str_int (z : Z) : result string :=
  if too_long z then
    Raise (ValueError "Exceeds the limit (4300 digits) for integer string conversion")
  else Ok (decimal z).

Definition map_result {A B} (f : A -> result B) : list A -> result (list B) :=
  fix go (l : list A) : result (list B) :=
    match l with
    | [] => Ok []
    | x :: l' =>
        match f x with
        | Ok y =>
            match go l' with
            | Ok ys => Ok (y :: ys)
            | Raise e => Raise e
            end
        | Raise e => Raise e
        end
    end.

Fixpoint repr (v : Value) : result string :=
  match v with
  | VBool b => Ok (if b then "True" else "False")
  | VInt z => str_int z
  | VStr s => Ok (repr_str s)
  | VList l =>
      match map_result repr l with
      | Ok ss => Ok ("[" ++ join ", " ss ++ "]")
      | Raise e => Raise e
      end
  | VDict d =>
      match map_result
              (fun '(k, x) =>
                 match repr x with
                 | Ok s => Ok (repr_str k ++ ": " ++ s)
                 | Raise e => Raise e
                 end) d with
      | Ok ss => Ok ("{" ++ join ", " ss ++ "}")
      | Raise e => Raise e
      end
  end.

(** [str(v)], which is what an f-string field [{v}] inserts. *)
Definition str (v : Value) : result string :=
  match v with
  | VStr s => Ok s
  | _ => repr v
  end.

(** ** The module run as a script *)

Fixpoint for_each {A} (l : list A) (body : A -> Py unit) : Py unit :=
  match l with
  | [] => ret tt
  | x :: l' => body x ;; for_each l' body
  end.

(** The body of the final loop: the icon, the label and the status of
    one requirement. *)
Definition print_detail (requirement : string) (status : Value) : Py unit :=
  let status_icon := if truthy status then "✓" else "✗" in
  text <- lift (str status) ;;
  print (status_icon ++ " " ++ title (replace "_" " " requirement)
           ++ ": " ++ text).

(** The loop [for requirement, status in compliance.items()]. *)
Definition print_details (its : list (string * Value)) : Py unit :=
  for_each its (fun '(requirement, status) => print_detail requirement status).

(** The statements of the guarded block that follow the construction of
    [bakery_impl], run on whatever state the instance is in. *)
Definition report_block : Py unit :=
  report <- generate_implementation_report ;;
  compliance <- validate_architecture_compliance ;;
  vals <- lift (values compliance) ;;
  let all_compliant := all vals in
  print "Crumble Bakery Implementation Status:" ;;
  verdict <- lift (str (VBool all_compliant)) ;;
  print ("Architecture Compliant: " ++ verdict) ;;
  file_statistics <- lift (getitem report "file_statistics") ;;
  total_files <- lift (getitem file_statistics "total_files") ;;
  files <- lift (str total_files) ;;
  print ("Files Created: " ++ files) ;;
  deployment_ready <- lift (getitem report "deployment_ready") ;;
  ready <- lift (str deployment_ready) ;;
  print ("Deployment Ready: " ++ ready) ;;
  its <- lift (items compliance) ;;
  print_details its.

(** The block under [if __name__ == "__main__":]: the construction of
    [bakery_impl], then the statements above. *)
Definition main : Py unit :=
  __init__ ;;
  report_block.

(** The whole module: the class statement, then the guarded block. *)
Definition module (__name__ : string) : Py unit :=
  class_body ;;
  if String.eqb __name__ "__main__" then main else ret tt.


(** The lines of a text, each ended by a newline. *)
Fixpoint lines_from (cur s : string) : list string :=
  match s with
  | EmptyString => if String.eqb cur "" then [] else [cur]
  | String c s' =>
      if Ascii.eqb c (ascii_of_nat 10) then cur :: lines_from "" s'
      else lines_from (cur ++ String c "") s'
  end.

Definition lines (s : string) : list string := lines_from "" s.


(** ** Vocabulary of the statements *)

(** [generate_implementation_report()[k]]. *)
Definition report_field (k : string) : Py Value :=
  report <- generate_implementation_report ;;
  lift (getitem report k).

(** The keys of the dict a computation returns, in insertion order. *)
Definition keys_of (r : result Value) : option (list string) :=
  match r with
  | Ok (VDict d) => Some (map fst d)
  | _ => None
  end.

(** Two instances: one as [__init__] leaves it, one whose [file_count]
    attribute was then assigned 3. *)
Definition blank : World :=
  mkWorld (VDict []) (VDict []) (mkInstance 0 0 false false) "" utf_8.

Definition constructed : World := snd ((class_body ;; __init__) blank).

Definition three_files : World :=
  snd ((class_body ;; __init__ ;; set_file_count 3) blank).


Fixpoint unlines (l : list string) : string :=
  match l with
  | [] => ""
  | s :: l' => s ++ newline ++ unlines l'
  end.

(** ** The script's block on any instance *)

(** [all(bakery_impl.validate_architecture_compliance().values())]. *)
Definition all_compliant : Py bool :=
  compliance <- validate_architecture_compliance ;;
  vals <- lift (values compliance) ;;
  ret (all vals).

(** The three conditions on the attributes that the compliance check
    tests. *)
Definition compliant (i : Instance) : Prop :=
  file_count i = 2 /\ uses_javascript i = false
  /\ uses_external_libraries i = false.

Definition bool_text (b : bool) : string := if b then "True" else "False".

Definition icon (b : bool) : string := if b then "✓" else "✗".

(** The lines the block prints, read off an instance. *)
Definition block_lines (i : Instance) : list string :=
  let c1 := file_count i =? 2 in
  let c2 := negb (uses_javascript i) in
  let c3 := negb (uses_external_libraries i) in
  ["Crumble Bakery Implementation Status:";
   "Architecture Compliant: " ++ bool_text (c1 && c2 && c3);
   "Files Created: " ++ decimal (file_count i);
   "Deployment Ready: True";
   icon c1 ++ " File Count: " ++ bool_text c1;
   icon c2 ++ " No Javascript: " ++ bool_text c2;
   icon c3 ++ " No External Libs: " ++ bool_text c3;
   "✓ Semantic Html: True";
   "✓ Mobile First Css: True";
   "✓ Single Media Query: True";
   "✓ Form Validation: True";
   "✓ Accessibility Features: True"].

Definition newline_free (s : string) : Prop :=
  contains (ascii_of_nat 10) s = false.

(** Text made of ASCII characters only. *)
Fixpoint ascii_text (s : string) : bool :=
  match s with
  | EmptyString => true
  | String c s' => (N_of_ascii c <? 128)%N && ascii_text s'
  end.

(** The two icons of the detail lines, U+2713 and U+2717. *)
Definition check_mark : N := 10003%N.
Definition cross_mark : N := 10007%N.

(** The line of the final loop for a requirement with a Boolean status. *)
Definition detail_line (requirement : string) (status : bool) : string :=
  icon status ++ " " ++ title (replace "_" " " requirement) ++ ": "
  ++ bool_text status.

(** Printing lines one after the other. *)
Definition print_lines (ls : list string) : Py unit := for_each ls print.

(** The number of elements at the head of a list that pass a test. *)
Fixpoint leading {A} (p : A -> bool) (l : list A) : nat :=
  match l with
  | [] => O
  | x :: l' => if p x then S (leading p l') else O
  end.

Definition encodable (e : Encoding) (s : string) : bool :=
  match unencodable e s with
  | None => true
  | Some _ => false
  end.


Definition huge_count : World :=
  snd ((class_body ;; __init__ ;; set_file_count (10 ^ 4300)) blank).

(** The keys of the report. *)
Definition report_keys : list string :=
  ["project_name"; "implementation_date"; "architecture_compliance";
   "html_structure"; "css_architecture"; "accessibility_features";
   "performance_optimizations"; "file_statistics";
   "browser_compatibility"; "deployment_ready"].

(** A constructed instance after [max_lines_per_file] was assigned 999
    and a line was printed. *)
Definition relaxed_limit : World :=
  snd ((class_body ;; __init__ ;; set_max_lines_per_file 999 ;; print "note") blank).

(** Title case, as [str.istitle] tests it on ASCII text, without its
    demand for a cased character: an upper-case letter only after an
    uncased character, a lower-case letter only after a cased one. *)
Fixpoint titled_from (previous_is_cased : bool) (s : string) : bool :=
  match s with
  | EmptyString => true
  | String c s' =>
      if islower c then previous_is_cased && titled_from true s'
      else if isupper c then negb previous_is_cased && titled_from true s'
      else titled_from false s'
  end.

(** The world after [out] was written to standard output. *)
Definition wrote (w : World) (out : string) : World :=
  mkWorld (COLOR_PALETTE w) (BREAKPOINTS w) (self w) (stdout w ++ out)
    (stdout_encoding w).

(** The outcome of printing lines one after the other: the error of the
    first line the encoding cannot take. *)
Fixpoint print_lines_result (e : Encoding) (ls : list string) : result unit :=
  match ls with
  | [] => Ok tt
  | l :: ls' =>
      match unencodable e l with
      | None => print_lines_result e ls'
      | Some cp => Raise (UnicodeEncodeError cp)
      end
  end.

(** How many of its lines the block gets to print, and how it ends. *)
Definition block_count (e : Encoding) (i : Instance) : nat :=
  if too_long (file_count i) then 2%nat
  else leading (encodable e) (block_lines i).

Definition block_result (e : Encoding) (i : Instance) : result unit :=
  if too_long (file_count i) then
    Raise (ValueError "Exceeds the limit (4300 digits) for integer string conversion")
  else print_lines_result e (block_lines i).

(** * Properties *)

(** ** The monad and the strings *)

Lemma bind_ok {A B} (m : Py A) (f : A -> Py B) (w w' : World) (a : A) :
  m w = (Ok a, w') -> bind m f w = f a w'.
Proof. intros H. unfold bind. now rewrite H. Qed.

Lemma append_assoc (a b c : string) : ((a ++ b) ++ c)%string = (a ++ b ++ c)%string.
Proof. induction a as [|x a IH]; simpl; [reflexivity | now rewrite IH]. Qed.

(** ** The public operations are pure *)

(** Every public operation returns a value and hands back the world it
    was given: no attribute is written, nothing is printed, nothing is
    raised. *)
Lemma call_pure (op : Op) (w : World) : exists v, call op w = (Ok v, w).
Proof. destruct op; eexists; reflexivity. Qed.

Lemma call_all_pure (ops : list Op) (w : World) : call_all ops w = (Ok tt, w).
Proof.
  induction ops as [|op ops IH]; simpl; [reflexivity|].
  destruct (call_pure op w) as [v Hv].
  rewrite (bind_ok _ _ _ _ _ Hv). exact IH.
Qed.

(** The constructor overwrites the four attributes, whatever was there. *)
Lemma init_world (w : World) :
  __init__ w =
  (Ok tt, mkWorld (COLOR_PALETTE w) (BREAKPOINTS w)
            (mkInstance 2 200 false false) (stdout w) (stdout_encoding w)).
Proof. reflexivity. Qed.

Lemma validate_world (w : World) :
  validate_architecture_compliance w =
  (Ok (VDict [("file_count", VBool (file_count (self w) =? 2));
              ("no_javascript", VBool (negb (uses_javascript (self w))));
              ("no_external_libs", VBool (negb (uses_external_libraries (self w))));
              ("semantic_html", VBool true);
              ("mobile_first_css", VBool true);
              ("single_media_query", VBool true);
              ("form_validation", VBool true);
              ("accessibility_features", VBool true)]), w).
Proof. reflexivity. Qed.

(** ** Compliance of a constructed instance *)

(** C1. On an instance built by [__init__], also after any number of
    calls of public operations, [validate_architecture_compliance]
    returns a dict all of whose values are [True]. *)
Theorem validate_after_init_all_true (w : World) (ops : list Op) :
  exists d,
    fst ((__init__ ;; call_all ops ;; validate_architecture_compliance) w)
      = Ok (VDict d)
    /\ Forall (fun kv => snd kv = VBool true) d.
Proof.
  rewrite (bind_ok _ _ _ _ _ (init_world w)).
  rewrite (bind_ok _ _ _ _ _ (call_all_pure ops _)).
  rewrite validate_world. simpl.
  eexists. split; [reflexivity|].
  repeat constructor.
Qed.

(** ** Repeated calls *)

(** C2. Two calls of the same public operation on an instance, with any
    calls of public operations in between, return equal values. *)
Theorem call_twice_same_result (op : Op) (between : list Op) (w : World) :
  exists v,
    fst ((r1 <- call op ;; call_all between ;; r2 <- call op ;; ret (r1, r2)) w)
      = Ok (v, v).
Proof.
  destruct (call_pure op w) as [v Hv]. exists v.
  rewrite (bind_ok _ _ _ _ _ Hv).
  rewrite (bind_ok _ _ _ _ _ (call_all_pure between w)).
  rewrite (bind_ok _ _ _ _ _ Hv).
  reflexivity.
Qed.

(** ** The report *)

(** C3, as stated, fails: the [file_statistics] field is not a literal.
    Its value differs between the two instances above, as it holds the
    instance's [file_count]. *)
Lemma file_statistics_depends_on_instance :
  fst (report_field "file_statistics" constructed)
    = Ok (VDict [("total_files", VInt 2);
                 ("html_lines", VStr "~50 lines");
                 ("css_lines", VStr "~180 lines");
                 ("total_lines", VStr "~230 lines (within 400 line limit)")])
  /\ fst (report_field "file_statistics" three_files)
    = Ok (VDict [("total_files", VInt 3);
                 ("html_lines", VStr "~50 lines");
                 ("css_lines", VStr "~180 lines");
                 ("total_lines", VStr "~230 lines (within 400 line limit)")])
  /\ fst (report_field "file_statistics" constructed)
       <> fst (report_field "file_statistics" three_files).
Proof.
  split; [reflexivity|]. split; [reflexivity|].
  vm_compute. discriminate.
Qed.

(** C3, amended. The report has exactly ten fields. Five of them hold
    what the five other operations return on the same instance; four are
    literals; [file_statistics] is a dict whose [total_files] entry is
    the instance's [file_count] and whose other entries are literals. *)
Theorem report_fields (w : World) :
  keys_of (fst (generate_implementation_report w))
    = Some ["project_name"; "implementation_date"; "architecture_compliance";
            "html_structure"; "css_architecture"; "accessibility_features";
            "performance_optimizations"; "file_statistics";
            "browser_compatibility"; "deployment_ready"]
  /\ report_field "architecture_compliance" w = validate_architecture_compliance w
  /\ report_field "html_structure" w = get_html_structure w
  /\ report_field "css_architecture" w = get_css_architecture w
  /\ report_field "accessibility_features" w = get_accessibility_features w
  /\ report_field "performance_optimizations" w = get_performance_optimizations w
  /\ report_field "project_name" w
       = (Ok (VStr "Crumble Bakery Coming Soon Page"), w)
  /\ report_field "implementation_date" w = (Ok (VStr "2026-02-03"), w)
  /\ report_field "browser_compatibility" w
       = (Ok (VStr "Modern browsers with CSS Flexbox support"), w)
  /\ report_field "deployment_ready" w = (Ok (VBool true), w)
  /\ report_field "file_statistics" w
       = (Ok (VDict [("total_files", VInt (file_count (self w)));
                     ("html_lines", VStr "~50 lines");
                     ("css_lines", VStr "~180 lines");
                     ("total_lines", VStr "~230 lines (within 400 line limit)")]),
          w).
Proof. repeat split; reflexivity. Qed.

(** C5. The report's [deployment_ready] field is [True] on every
    instance. *)
Theorem report_deployment_ready (w : World) :
  fst ((report <- generate_implementation_report ;;
        lift (getitem report "deployment_ready")) w)
    = Ok (VBool true).
Proof. reflexivity. Qed.

(** ** The HTML structure *)

(** C4. [get_html_structure()['body']['footer']['social_links']] is the
    list [['Instagram', 'Facebook', 'Twitter']], in that order. *)
Theorem html_structure_social_links (w : World) :
  fst ((html <- get_html_structure ;;
        body <- lift (getitem html "body") ;;
        footer <- lift (getitem body "footer") ;;
        lift (getitem footer "social_links")) w)
    = Ok (VList [VStr "Instagram"; VStr "Facebook"; VStr "Twitter"]).
Proof. reflexivity. Qed.

(** ** Totality and frame *)

(** C7. Every public operation returns a value on every instance: it
    never raises. *)
Theorem call_never_raises (op : Op) (w : World) :
  exists v, fst (call op w) = Ok v.
Proof. destruct (call_pure op w) as [v Hv]. exists v. now rewrite Hv. Qed.

(** C8. No public operation changes the class attributes
    [COLOR_PALETTE] and [BREAKPOINTS] or the four attributes that
    [__init__] sets. *)
Theorem call_keeps_configuration (op : Op) (w : World) :
  let w' := snd (call op w) in
  COLOR_PALETTE w' = COLOR_PALETTE w
  /\ BREAKPOINTS w' = BREAKPOINTS w
  /\ file_count (self w') = file_count (self w)
  /\ max_lines_per_file (self w') = max_lines_per_file (self w)
  /\ uses_javascript (self w') = uses_javascript (self w)
  /\ uses_external_libraries (self w') = uses_external_libraries (self w).
Proof.
  destruct (call_pure op w) as [v Hv]. rewrite Hv. simpl.
  repeat split.
Qed.

(** ** The compliance dict *)

(** C9. The dict returned by [validate_architecture_compliance] has
    exactly eight keys, each once. *)
Theorem validate_keys (w : World) :
  exists d,
    fst (validate_architecture_compliance w) = Ok (VDict d)
    /\ map fst d
       = ["file_count"; "no_javascript"; "no_external_libs"; "semantic_html";
          "mobile_first_css"; "single_media_query"; "form_validation";
          "accessibility_features"]
    /\ NoDup (map fst d)
    /\ List.length d = 8%nat.
Proof.
  eexists. split; [reflexivity|]. split; [reflexivity|]. split; [|reflexivity].
  simpl.
  repeat (constructor; [simpl; intros H;
    repeat (destruct H as [H|H]; [discriminate H|]); exact H|]).
  constructor.
Qed.

(** C10. Five values of the compliance dict are [True] on every
    instance; the other three follow the instance's attributes. *)
Theorem validate_values (w : World) :
  exists d,
    fst (validate_architecture_compliance w) = Ok (VDict d)
    /\ dict_get d "semantic_html" = Some (VBool true)
    /\ dict_get d "mobile_first_css" = Some (VBool true)
    /\ dict_get d "single_media_query" = Some (VBool true)
    /\ dict_get d "form_validation" = Some (VBool true)
    /\ dict_get d "accessibility_features" = Some (VBool true)
    /\ (exists b, dict_get d "file_count" = Some (VBool b)
                  /\ (b = true <-> file_count (self w) = 2))
    /\ (exists b, dict_get d "no_javascript" = Some (VBool b)
                  /\ (b = true <-> uses_javascript (self w) = false))
    /\ (exists b, dict_get d "no_external_libs" = Some (VBool b)
                  /\ (b = true <-> uses_external_libraries (self w) = false)).
Proof.
  eexists. split; [reflexivity|].
  repeat (split; [reflexivity|]).
  split; [|split]; eexists; (split; [reflexivity|]).
  - apply Z.eqb_eq.
  - apply negb_true_iff.
  - apply negb_true_iff.
Qed.


(** ** Printing *)

Lemma append_nil_r (a : string) : (a ++ "")%string = a.
Proof. induction a as [|x a IH]; simpl; congruence. Qed.

Lemma wrote_nothing (w : World) : wrote w "" = w.
Proof. unfold wrote. rewrite append_nil_r. now destruct w. Qed.

Lemma wrote_wrote (w : World) (a b : string) :
  wrote (wrote w a) b = wrote w (a ++ b).
Proof. unfold wrote. cbn. now rewrite append_assoc. Qed.

Lemma print_ok (s : string) (w : World) :
  unencodable (stdout_encoding w) s = None ->
  print s w = (Ok tt, wrote w (s ++ newline)).
Proof. intros H. unfold print. now rewrite H. Qed.

Lemma print_fails (s : string) (w : World) (cp : N) :
  unencodable (stdout_encoding w) s = Some cp ->
  print s w = (Raise (UnicodeEncodeError cp), w).
Proof. intros H. unfold print. now rewrite H. Qed.

(** Lines are printed up to the first one the encoding cannot take. *)
Lemma print_lines_run (ls : list string) (w : World) :
  print_lines ls w =
  (print_lines_result (stdout_encoding w) ls,
   wrote w (unlines (firstn (leading (encodable (stdout_encoding w)) ls) ls))).
Proof.
  revert w. induction ls as [|l ls IH]; intros w.
  - cbn. now rewrite wrote_nothing.
  - change (print_lines (l :: ls)) with (print l ;; print_lines ls).
    cbn [print_lines_result leading]. unfold encodable at 1.
    destruct (unencodable (stdout_encoding w) l) as [cp|] eqn:E.
    + unfold bind. rewrite (print_fails _ _ _ E).
      cbn. now rewrite wrote_nothing.
    + rewrite (bind_ok _ _ _ _ _ (print_ok _ _ E)). rewrite IH.
      cbn [stdout_encoding wrote firstn unlines].
      rewrite wrote_wrote. now rewrite append_assoc.
Qed.

Lemma unencodable_ascii (e : Encoding) (s : string) :
  ascii_text s = true -> unencodable e s = None.
Proof.
  unfold unencodable. induction s as [|c s IH]; [reflexivity|].
  cbn [ascii_text code_points]. intros H.
  apply andb_true_iff in H. destruct H as [Hc Hs].
  rewrite Hc. cbn [find]. unfold can_encode at 1. rewrite Hc.
  cbn. now apply IH.
Qed.

Lemma encodable_ascii (e : Encoding) (s : string) :
  ascii_text s = true -> encodable e s = true.
Proof. intros H. unfold encodable. now rewrite (unencodable_ascii e s H). Qed.

Lemma ascii_text_append (a b : string) :
  ascii_text (a ++ b) = ascii_text a && ascii_text b.
Proof.
  induction a as [|c a IH]; [reflexivity|].
  cbn [append ascii_text]. rewrite IH. now rewrite andb_assoc.
Qed.

Lemma ascii_text_uint (d : Decimal.uint) :
  ascii_text (NilEmpty.string_of_uint d) = true.
Proof. induction d; cbn [NilEmpty.string_of_uint ascii_text]; auto. Qed.

Lemma ascii_text_decimal (z : Z) : ascii_text (decimal z) = true.
Proof.
  assert (H : forall d, ascii_text (NilZero.string_of_uint d) = true).
  { intros d. destruct d; first [reflexivity | exact (ascii_text_uint _)]. }
  unfold decimal, NilZero.string_of_int.
  destruct (Z.to_int z) as [d|d]; [apply H|].
  cbn [append ascii_text]. apply H.
Qed.

(** ** The script's block as a sequence of printed lines *)

(** When [file_count] can be formatted, the block prints the lines of
    [block_lines], one after the other. *)
Lemma report_block_lines (w : World) :
  too_long (file_count (self w)) = false ->
  report_block w = print_lines (block_lines (self w)) w.
Proof.
  destruct w as [cp bp [fc ml js ext] out e].
  cbn [self file_count]. intros Ho.
  unfold report_block, print_lines, block_lines.
  cbv -[print decimal too_long Z.eqb]. rewrite Ho.
  destruct (fc =? 2); destruct js; destruct ext;
    cbv -[print decimal]; reflexivity.
Qed.

(** When it cannot, the block stops with [ValueError] after the first
    two lines. *)
Lemma report_block_too_long (w : World) :
  too_long (file_count (self w)) = true ->
  report_block w =
  (print_lines (firstn 2 (block_lines (self w))) ;;
   lift (Raise (ValueError
     "Exceeds the limit (4300 digits) for integer string conversion"))) w.
Proof.
  destruct w as [cp bp [fc ml js ext] out e].
  cbn [self file_count]. intros Ho.
  unfold report_block, print_lines, block_lines.
  cbv -[print decimal too_long Z.eqb]. rewrite Ho.
  destruct (fc =? 2); destruct js; destruct ext;
    cbv -[print decimal]; reflexivity.
Qed.

Ltac solve_ascii :=
  first [ reflexivity
        | rewrite ascii_text_append, ascii_text_decimal; reflexivity ].

(** The first four lines are ASCII text, so every stream takes them. *)
Lemma block_head (e : Encoding) (i : Instance) :
  exists l1 l2 l3 l4 details,
    block_lines i = l1 :: l2 :: l3 :: l4 :: details
    /\ unencodable e l1 = None /\ unencodable e l2 = None
    /\ unencodable e l3 = None /\ unencodable e l4 = None.
Proof.
  destruct i as [fc ml js ext]. unfold block_lines.
  cbn [file_count uses_javascript uses_external_libraries].
  do 5 eexists. split; [reflexivity|].
  destruct (fc =? 2); destruct js; destruct ext;
    repeat split; apply unencodable_ascii; solve_ascii.
Qed.

Lemma block_lines_leading (e : Encoding) (i : Instance) :
  (4 <= leading (encodable e) (block_lines i))%nat.
Proof.
  destruct (block_head e i) as (l1 & l2 & l3 & l4 & ds & -> & H1 & H2 & H3 & H4).
  cbn [leading]. unfold encodable. rewrite H1, H2, H3, H4. lia.
Qed.

Lemma block_count_bounds (e : Encoding) (i : Instance) :
  (2 <= block_count e i)%nat.
Proof.
  unfold block_count. destruct (too_long (file_count i)); [lia|].
  pose proof (block_lines_leading e i). lia.
Qed.

(** What the block does in every world. *)
Lemma report_block_run (w : World) :
  report_block w =
  (block_result (stdout_encoding w) (self w),
   wrote w (unlines (firstn (block_count (stdout_encoding w) (self w))
                       (block_lines (self w))))).
Proof.
  unfold block_result, block_count.
  destruct (too_long (file_count (self w))) eqn:Ho.
  - rewrite (report_block_too_long w Ho).
    unfold bind. rewrite print_lines_run.
    destruct (block_head (stdout_encoding w) (self w))
      as (l1 & l2 & l3 & l4 & ds & -> & H1 & H2 & _ & _).
    cbn [firstn print_lines_result leading]. unfold encodable.
    rewrite H1, H2. reflexivity.
  - rewrite (report_block_lines w Ho). apply print_lines_run.
Qed.

Lemma print_lines_result_ok (e : Encoding) (ls : list string) :
  print_lines_result e ls = Ok tt ->
  leading (encodable e) ls = List.length ls.
Proof.
  induction ls as [|l ls IH]; [reflexivity|].
  cbn [print_lines_result leading List.length]. unfold encodable at 1.
  destruct (unencodable e l); [discriminate|].
  intros H. now rewrite (IH H).
Qed.

Lemma print_lines_result_all (e : Encoding) (ls : list string) :
  forallb (encodable e) ls = true ->
  print_lines_result e ls = Ok tt.
Proof.
  induction ls as [|l ls IH]; [reflexivity|].
  cbn [print_lines_result forallb]. unfold encodable at 1.
  destruct (unencodable e l); [discriminate|]. exact IH.
Qed.

(** A block that completes has printed all twelve lines. *)
Lemma report_block_complete (w : World) :
  fst (report_block w) = Ok tt ->
  report_block w = (Ok tt, wrote w (unlines (block_lines (self w)))).
Proof.
  rewrite report_block_run. cbn [fst]. intros H. rewrite H. f_equal.
  unfold block_result, block_count in *.
  destruct (too_long (file_count (self w))); [discriminate|].
  rewrite (print_lines_result_ok _ _ H). now rewrite firstn_all.
Qed.

Lemma contains_append (c : ascii) (a b : string) :
  contains c (a ++ b) = contains c a || contains c b.
Proof.
  induction a as [|x a IH]; simpl; [reflexivity|].
  rewrite IH. now rewrite orb_assoc.
Qed.

Lemma lines_from_line (s cur rest : string) :
  newline_free s ->
  lines_from cur (s ++ newline ++ rest) = (cur ++ s)%string :: lines_from "" rest.
Proof.
  unfold newline_free. revert cur.
  induction s as [|c s IH]; intros cur H.
  - simpl. f_equal. clear. induction cur as [|x cur IH]; simpl; congruence.
  - simpl in H. apply orb_false_iff in H. destruct H as [Hc Hs].
    simpl. rewrite Hc. rewrite (IH _ Hs). now rewrite append_assoc.
Qed.

(** Splitting into lines undoes [unlines] on newline-free lines. *)
Lemma lines_unlines (l : list string) :
  Forall newline_free l -> lines (unlines l) = l.
Proof.
  unfold lines. induction 1 as [|s l Hs _ IH]; [reflexivity|].
  change (unlines (s :: l)) with (s ++ newline ++ unlines l)%string.
  rewrite (lines_from_line _ _ _ Hs). simpl. now rewrite IH.
Qed.

Lemma string_of_uint_newline_free (d : Decimal.uint) :
  newline_free (NilEmpty.string_of_uint d).
Proof. unfold newline_free. induction d; simpl; auto. Qed.

Lemma decimal_newline_free (z : Z) : newline_free (decimal z).
Proof.
  unfold decimal, NilZero.string_of_int, NilZero.string_of_uint, newline_free.
  destruct (Z.to_int z) as [d|d]; destruct d; simpl;
    auto using string_of_uint_newline_free;
    apply string_of_uint_newline_free.
Qed.

Lemma block_lines_newline_free (i : Instance) :
  Forall newline_free (block_lines i).
Proof.
  destruct i as [fc ml js ext]. unfold block_lines.
  cbn [file_count uses_javascript uses_external_libraries].
  assert (Hfc : newline_free ("Files Created: " ++ decimal fc)).
  { unfold newline_free. rewrite contains_append.
    now rewrite (decimal_newline_free fc). }
  destruct (fc =? 2); destruct js; destruct ext;
    repeat (constructor; [first [exact Hfc | reflexivity]|]); constructor.
Qed.

Lemma Forall_firstn {A} (P : A -> Prop) (n : nat) (l : list A) :
  Forall P l -> Forall P (firstn n l).
Proof.
  intros H. revert n. induction H as [|x l Hx _ IH]; intros [|n]; cbn;
    constructor; auto.
Qed.

Lemma In_firstn {A} (x : A) (n : nat) (l : list A) :
  In x (firstn n l) -> In x l.
Proof.
  revert n. induction l as [|y l IH]; intros [|n]; cbn; try tauto.
  intros [H|H]; [now left | right; eauto].
Qed.

(** The lines of what the block wrote, in every world. *)
Lemma report_block_written (w : World) :
  exists n,
    (2 <= n)%nat
    /\ stdout (snd (report_block w))
       = (stdout w ++ unlines (firstn n (block_lines (self w))))%string
    /\ lines (unlines (firstn n (block_lines (self w))))
       = firstn n (block_lines (self w)).
Proof.
  exists (block_count (stdout_encoding w) (self w)).
  split; [apply block_count_bounds|].
  rewrite report_block_run. split; [reflexivity|].
  apply lines_unlines, Forall_firstn, block_lines_newline_free.
Qed.

(** ** The script *)






(** ** The overall verdict *)

Lemma compliant_iff (i : Instance) :
  (file_count i =? 2) && negb (uses_javascript i)
    && negb (uses_external_libraries i) = true
  <-> compliant i.
Proof.
  unfold compliant.
  rewrite !andb_true_iff, !negb_true_iff, Z.eqb_eq. tauto.
Qed.

(** [all(compliance.values())] never raises, changes nothing, and is
    [True] exactly when [file_count] is 2 and both [uses_javascript] and
    [uses_external_libraries] are [False]. *)
Theorem all_compliant_iff (w : World) :
  exists b,
    all_compliant w = (Ok b, w) /\ (b = true <-> compliant (self w)).
Proof.
  eexists. split; [reflexivity|].
  cbn [map snd all forallb truthy].
  rewrite <- compliant_iff.
  rewrite !andb_true_r, andb_assoc. reflexivity.
Qed.

(** ** What the operations read *)

(** The value a public operation returns is fixed by [file_count],
    [uses_javascript] and [uses_external_libraries]: the class
    attributes, [max_lines_per_file] and what was printed so far have no
    influence on it. *)
Theorem call_reads_three_attributes (op : Op) (w1 w2 : World) :
  file_count (self w1) = file_count (self w2) ->
  uses_javascript (self w1) = uses_javascript (self w2) ->
  uses_external_libraries (self w1) = uses_external_libraries (self w2) ->
  fst (call op w1) = fst (call op w2).
Proof.
  destruct w1 as [cp1 bp1 [fc1 ml1 js1 ext1] out1 e1].
  destruct w2 as [cp2 bp2 [fc2 ml2 js2 ext2] out2 e2].
  cbn [self file_count uses_javascript uses_external_libraries].
  intros -> -> ->. destruct op; reflexivity.
Qed.

Lemma call_reads_three_attributes_witness :
  fst (call OpGenerateImplementationReport constructed)
  = fst (call OpGenerateImplementationReport relaxed_limit).
Proof.
  apply (call_reads_three_attributes OpGenerateImplementationReport
           constructed relaxed_limit); reflexivity.
Defined.

(** ** The report's keys and its internal agreement *)

(** Subscripting the report with a key that is not one of its ten keys
    raises [KeyError] for that key and changes nothing. *)
Theorem report_field_missing_key (k : string) (w : World) :
  ~ In k report_keys ->
  report_field k w = (Raise (KeyError k), w).
Proof.
  intros H. unfold report_field.
  rewrite (bind_ok _ _ _ _ _
             (eq_refl : generate_implementation_report w = (Ok _, w))).
  unfold lift, getitem. cbn [dict_get].
  repeat match goal with
         | |- context [String.eqb ?a k] =>
             destruct (String.eqb_spec a k) as [E|_];
             [exfalso; apply H; rewrite <- E; simpl; tauto|]
         end.
  reflexivity.
Qed.

Lemma report_field_missing_key_witness :
  report_field "author" constructed = (Raise (KeyError "author"), constructed).
Proof.
  apply (report_field_missing_key "author" constructed).
  simpl. intros H.
  repeat (destruct H as [H|H]; [discriminate H|]). exact H.
Defined.

(** In every report the [file_count] flag of [architecture_compliance]
    is [True] exactly when [file_statistics] shows 2 as [total_files]. *)
Theorem report_flag_agrees_with_statistics (w : World) :
  exists b n,
    fst ((report <- generate_implementation_report ;;
          compliance <- lift (getitem report "architecture_compliance") ;;
          lift (getitem compliance "file_count")) w) = Ok (VBool b)
    /\ fst ((report <- generate_implementation_report ;;
             statistics <- lift (getitem report "file_statistics") ;;
             lift (getitem statistics "total_files")) w) = Ok (VInt n)
    /\ (b = true <-> n = 2).
Proof.
  do 2 eexists. split; [reflexivity|]. split; [reflexivity|].
  apply Z.eqb_eq.
Qed.

(** ** What the report tells *)

(** With an integer [file_count] and Boolean flags, as [__init__] types
    them, two instances with equal reports agree on [file_count],
    [uses_javascript] and [uses_external_libraries]. *)
Theorem report_determines_attributes (w1 w2 : World) :
  fst (generate_implementation_report w1)
    = fst (generate_implementation_report w2) ->
  file_count (self w1) = file_count (self w2)
  /\ uses_javascript (self w1) = uses_javascript (self w2)
  /\ uses_external_libraries (self w1) = uses_external_libraries (self w2).
Proof.
  destruct w1 as [cp1 bp1 [fc1 ml1 js1 ext1] out1 e1].
  destruct w2 as [cp2 bp2 [fc2 ml2 js2 ext2] out2 e2].
  cbn [self file_count uses_javascript uses_external_libraries].
  intros H. injection H as _ Hjs Hext Hfc.
  repeat split; [exact Hfc | now destruct js1, js2 | now destruct ext1, ext2].
Qed.

Lemma report_determines_attributes_witness :
  file_count (self constructed) = file_count (self relaxed_limit)
  /\ uses_javascript (self constructed) = uses_javascript (self relaxed_limit)
  /\ uses_external_libraries (self constructed)
     = uses_external_libraries (self relaxed_limit).
Proof.
  apply (report_determines_attributes constructed relaxed_limit). reflexivity.
Defined.

(** ** The module imported, not run *)

(** Under any name other than [__main__] the module only binds the class:
    it raises nothing, prints nothing and touches no instance, and
    [COLOR_PALETTE] and [BREAKPOINTS] hold the three colours and the two
    ranges of the class statement. *)
Theorem module_imported_is_silent (name : string) (w : World) :
  name <> "__main__" ->
  fst (module name w) = Ok tt
  /\ stdout (snd (module name w)) = stdout w
  /\ self (snd (module name w)) = self w
  /\ COLOR_PALETTE (snd (module name w))
     = VDict [("background", VStr "#f8f5f2");
              ("primary_text", VStr "#2c1810");
              ("accent", VStr "#d4941e")]
  /\ BREAKPOINTS (snd (module name w))
     = VDict [("mobile", VStr "0px - 479px");
              ("desktop", VStr "480px and up")].
Proof.
  intros H. unfold module.
  rewrite (bind_ok _ _ _ _ _ (eq_refl : class_body w = (Ok tt, _))).
  destruct (String.eqb_spec name "__main__") as [E|_]; [contradiction|].
  repeat split.
Qed.

Lemma module_imported_is_silent_witness :
  fst (module "project" blank) = Ok tt
  /\ stdout (snd (module "project" blank)) = stdout blank
  /\ self (snd (module "project" blank)) = self blank
  /\ COLOR_PALETTE (snd (module "project" blank))
     = VDict [("background", VStr "#f8f5f2");
              ("primary_text", VStr "#2c1810");
              ("accent", VStr "#d4941e")]
  /\ BREAKPOINTS (snd (module "project" blank))
     = VDict [("mobile", VStr "0px - 479px");
              ("desktop", VStr "480px and up")].
Proof.
  apply (module_imported_is_silent "project" blank). discriminate.
Defined.

(** ** What the block prints *)

Lemma verdict_true_printed (i : Instance) :
  In "Architecture Compliant: True" (block_lines i) <-> compliant i.
Proof.
  rewrite <- compliant_iff.
  destruct i as [fc ml js ext]. unfold block_lines.
  cbn [file_count uses_javascript uses_external_libraries].
  destruct (fc =? 2); destruct js; destruct ext;
    cbn [andb negb bool_text icon]; (split; intros H;
      [ first [ reflexivity
              | exfalso; cbn [In] in H;
                repeat (destruct H as [H|H]; [discriminate H|]); exact H ]
      | first [ discriminate H | right; left; reflexivity ] ]).
Qed.

Lemma verdict_false_printed (i : Instance) :
  In "Architecture Compliant: False" (block_lines i) <-> ~ compliant i.
Proof.
  rewrite <- compliant_iff.
  destruct i as [fc ml js ext]. unfold block_lines.
  cbn [file_count uses_javascript uses_external_libraries].
  destruct (fc =? 2); destruct js; destruct ext;
    cbn [andb negb bool_text icon]; (split; intros H;
      [ first [ discriminate
              | exfalso; cbn [In] in H;
                repeat (destruct H as [H|H]; [discriminate H|]); exact H ]
      | first [ right; left; reflexivity | exfalso; apply H; reflexivity ] ]).
Qed.

(** The verdict is the second line, so it is among the first [n] lines
    as soon as [n] is at least 2. *)
Lemma verdict_in_head (v : string) (n : nat) (i : Instance) :
  (2 <= n)%nat ->
  In v (block_lines i) ->
  (v = "Architecture Compliant: True" \/ v = "Architecture Compliant: False") ->
  In v (firstn n (block_lines i)).
Proof.
  intros Hn Hin Hv.
  destruct n as [|[|n]]; [lia | lia |].
  destruct i as [fc ml js ext]. unfold block_lines in *.
  cbn [file_count uses_javascript uses_external_libraries firstn] in *.
  right. left.
  destruct Hv as [-> | ->];
    destruct (fc =? 2); destruct js; destruct ext;
    cbn [andb negb bool_text icon] in *;
    first [ reflexivity
          | exfalso; cbn [In] in Hin;
            repeat (destruct Hin as [Hin|Hin]; [discriminate Hin|]);
            exact Hin ].
Qed.

(** The second line the block prints is the verdict:
    [Architecture Compliant: True] is among the printed lines exactly
    when the three tested conditions hold, and
    [Architecture Compliant: False] exactly when one of them fails. *)
Theorem report_block_verdict (w : World) :
  exists out,
    stdout (snd (report_block w)) = (stdout w ++ out)%string
    /\ (In "Architecture Compliant: True" (lines out) <-> compliant (self w))
    /\ (In "Architecture Compliant: False" (lines out) <-> ~ compliant (self w)).
Proof.
  destruct (report_block_written w) as (n & Hn & Hout & Hlines).
  eexists. split; [exact Hout|]. rewrite Hlines.
  split.
  - rewrite <- verdict_true_printed. split.
    + apply In_firstn.
    + intros H. apply (verdict_in_head _ _ _ Hn H). now left.
  - rewrite <- verdict_false_printed. split.
    + apply In_firstn.
    + intros H. apply (verdict_in_head _ _ _ Hn H). now right.
Qed.

Lemma no_cross_printed (i : Instance) :
  forallb (fun l => negb (prefix "✗" l)) (block_lines i) = true <-> compliant i.
Proof.
  rewrite <- compliant_iff.
  destruct i as [fc ml js ext]. unfold block_lines.
  cbn [file_count uses_javascript uses_external_libraries].
  destruct (fc =? 2); destruct js; destruct ext; vm_compute;
    split; intros H; first [reflexivity | discriminate H].
Qed.

(** A stream that has both icons takes every line of the block. *)
Lemma block_lines_encodable (e : Encoding) (i : Instance) :
  can_encode e check_mark = true ->
  can_encode e cross_mark = true ->
  forallb (encodable e) (block_lines i) = true.
Proof.
  destruct i as [fc ml js ext]. destruct e as [beyond].
  unfold can_encode, check_mark, cross_mark. cbn [beyond_ascii].
  change (10003 <? 128)%N with false. change (10007 <? 128)%N with false.
  cbn [orb]. intros Hc Hx.
  unfold block_lines.
  cbn [file_count uses_javascript uses_external_libraries forallb].
  rewrite (encodable_ascii _ ("Files Created: " ++ decimal fc)) by solve_ascii.
  destruct (fc =? 2); destruct js; destruct ext;
    cbv; rewrite ?Hc, ?Hx; reflexivity.
Qed.


(** When [file_count] has at most 4300 digits and standard output has
    both icons, the block raises nothing, leaves the class attributes
    and the instance as they are, and adds exactly the twelve lines of
    [block_lines] to standard output. *)
Theorem report_block_prints (w : World) :
  too_long (file_count (self w)) = false ->
  can_encode (stdout_encoding w) check_mark = true ->
  can_encode (stdout_encoding w) cross_mark = true ->
  fst (report_block w) = Ok tt
  /\ COLOR_PALETTE (snd (report_block w)) = COLOR_PALETTE w
  /\ BREAKPOINTS (snd (report_block w)) = BREAKPOINTS w
  /\ self (snd (report_block w)) = self w
  /\ exists out,
       stdout (snd (report_block w)) = (stdout w ++ out)%string
       /\ lines out = block_lines (self w).
Proof.
  intros Ho Hc Hx.
  assert (Hok : fst (report_block w) = Ok tt).
  { rewrite report_block_run. cbn [fst]. unfold block_result. rewrite Ho.
    apply print_lines_result_all, block_lines_encodable; assumption. }
  rewrite (report_block_complete w Hok). cbn [fst snd wrote].
  cbn [COLOR_PALETTE BREAKPOINTS self stdout].
  repeat (split; [reflexivity|]).
  eexists. split; [reflexivity|].
  apply lines_unlines, block_lines_newline_free.
Qed.

Lemma report_block_prints_witness :
  fst (report_block constructed) = Ok tt
  /\ COLOR_PALETTE (snd (report_block constructed)) = COLOR_PALETTE constructed
  /\ BREAKPOINTS (snd (report_block constructed)) = BREAKPOINTS constructed
  /\ self (snd (report_block constructed)) = self constructed
  /\ exists out,
       stdout (snd (report_block constructed)) = (stdout constructed ++ out)%string
       /\ lines out = block_lines (self constructed).
Proof. apply (report_block_prints constructed); reflexivity. Defined.

(** When [file_count] has more than 4300 digits, the block raises
    [ValueError] at the [Files Created] line: the header and the verdict
    [False] are printed, nothing else, and the instance is unchanged. *)
Theorem report_block_too_many_digits (w : World) :
  too_long (file_count (self w)) = true ->
  fst (report_block w)
    = Raise (ValueError
        "Exceeds the limit (4300 digits) for integer string conversion")
  /\ self (snd (report_block w)) = self w
  /\ exists out,
       stdout (snd (report_block w)) = (stdout w ++ out)%string
       /\ lines out = ["Crumble Bakery Implementation Status:";
                       "Architecture Compliant: False"].
Proof.
  intros Ho. rewrite report_block_run. unfold block_result, block_count.
  rewrite Ho. cbn [fst snd wrote self stdout].
  split; [reflexivity|]. split; [reflexivity|].
  eexists. split; [reflexivity|].
  destruct (self w) as [fc ml js ext]. cbn [file_count] in Ho.
  assert (Hfc : (fc =? 2) = false).
  { destruct (Z.eqb_spec fc 2) as [->|_]; [|reflexivity].
    vm_compute in Ho. discriminate Ho. }
  unfold block_lines. cbn [file_count firstn]. rewrite Hfc. reflexivity.
Qed.

Lemma report_block_too_many_digits_witness :
  fst (report_block huge_count)
    = Raise (ValueError
        "Exceeds the limit (4300 digits) for integer string conversion")
  /\ self (snd (report_block huge_count)) = self huge_count
  /\ exists out,
       stdout (snd (report_block huge_count)) = (stdout huge_count ++ out)%string
       /\ lines out = ["Crumble Bakery Implementation Status:";
                       "Architecture Compliant: False"].
Proof. apply (report_block_too_many_digits huge_count). vm_compute. reflexivity. Defined.



(** When the block completes, its verdict agrees with its detail lines:
    it has printed [Architecture Compliant: True] exactly when none of
    the lines it printed starts with the cross. *)
Theorem report_block_verdict_matches_details (w : World) :
  fst (report_block w) = Ok tt ->
  exists out,
    stdout (snd (report_block w)) = (stdout w ++ out)%string
    /\ (In "Architecture Compliant: True" (lines out)
        <-> forallb (fun l => negb (prefix "✗" l)) (lines out) = true).
Proof.
  intros Hok. rewrite (report_block_complete w Hok). cbn [snd wrote stdout].
  eexists. split; [reflexivity|].
  rewrite (lines_unlines _ (block_lines_newline_free _)).
  now rewrite verdict_true_printed, no_cross_printed.
Qed.

Lemma report_block_verdict_matches_details_witness :
  exists out,
    stdout (snd (report_block constructed)) = (stdout constructed ++ out)%string
    /\ (In "Architecture Compliant: True" (lines out)
        <-> forallb (fun l => negb (prefix "✗" l)) (lines out) = true).
Proof.
  apply (report_block_verdict_matches_details constructed). reflexivity.
Defined.

(** When the block completes, running it again completes too and prints
    the same twelve lines again: its output is fixed by the instance,
    which it does not change. *)
Theorem report_block_twice (w : World) :
  fst (report_block w) = Ok tt ->
  exists out,
    stdout (snd (report_block w)) = (stdout w ++ out)%string
    /\ lines out = block_lines (self w)
    /\ fst ((report_block ;; report_block) w) = Ok tt
    /\ stdout (snd ((report_block ;; report_block) w))
       = (stdout w ++ out ++ out)%string
    /\ self (snd ((report_block ;; report_block) w)) = self w.
Proof.
  intros Hok.
  pose proof (report_block_complete w Hok) as Hrun.
  assert (Hok2 : fst (report_block (wrote w (unlines (block_lines (self w)))))
                 = Ok tt).
  { rewrite report_block_run. cbn [fst stdout_encoding self wrote].
    rewrite report_block_run in Hok. exact Hok. }
  rewrite (bind_ok _ _ _ _ _ Hrun).
  rewrite (report_block_complete _ Hok2). rewrite Hrun.
  cbn [fst snd wrote self stdout].
  eexists. split; [reflexivity|].
  split; [apply lines_unlines, block_lines_newline_free|].
  split; [reflexivity|]. split; [|reflexivity]. now rewrite append_assoc.
Qed.

Lemma report_block_twice_witness :
  exists out,
    stdout (snd (report_block constructed)) = (stdout constructed ++ out)%string
    /\ lines out = block_lines (self constructed)
    /\ fst ((report_block ;; report_block) constructed) = Ok tt
    /\ stdout (snd ((report_block ;; report_block) constructed))
       = (stdout constructed ++ out ++ out)%string
    /\ self (snd ((report_block ;; report_block) constructed)) = self constructed.
Proof. apply (report_block_twice constructed). reflexivity. Defined.

(** ** The labels of the detail lines *)

Lemma upper_of_lower (c : ascii) :
  islower c = true ->
  islower (upper c) = false /\ isupper (upper c) = true
  /\ Ascii.eqb (upper c) "_" = false
  /\ Ascii.eqb (upper c) (ascii_of_nat 10) = false
  /\ (N_of_ascii (upper c) <? 128)%N = true.
Proof.
  destruct c as [[] [] [] [] [] [] [] []]; intros H;
    first [discriminate H | repeat split].
Qed.

Lemma lower_of_upper (c : ascii) :
  isupper c = true ->
  islower (lower c) = true
  /\ Ascii.eqb (lower c) "_" = false
  /\ Ascii.eqb (lower c) (ascii_of_nat 10) = false
  /\ (N_of_ascii (lower c) <? 128)%N = true.
Proof.
  destruct c as [[] [] [] [] [] [] [] []]; intros H;
    first [discriminate H | repeat split].
Qed.

Lemma replace_length (old new : ascii) (s : string) :
  String.length (replace old new s) = String.length s.
Proof. induction s as [|c s IH]; simpl; congruence. Qed.

Lemma replace_removes (s : string) :
  contains "_" (replace "_" " " s) = false.
Proof.
  induction s as [|c s IH]; [reflexivity|].
  cbn [replace contains]. rewrite IH, orb_false_r.
  destruct (Ascii.eqb_spec c "_") as [_|E]; [reflexivity|].
  now apply Ascii.eqb_neq.
Qed.

Lemma replace_newline_free (s : string) :
  newline_free s -> newline_free (replace "_" " " s).
Proof.
  unfold newline_free. induction s as [|c s IH]; [reflexivity|].
  cbn [replace contains]. intros H.
  apply orb_false_iff in H. destruct H as [Hc Hs]. rewrite (IH Hs), orb_false_r.
  destruct (Ascii.eqb c "_"); [reflexivity | exact Hc].
Qed.

Lemma replace_ascii (s : string) :
  ascii_text s = true -> ascii_text (replace "_" " " s) = true.
Proof.
  induction s as [|c s IH]; [reflexivity|].
  cbn [replace ascii_text]. intros H.
  apply andb_true_iff in H. destruct H as [Hc Hs]. rewrite (IH Hs), andb_true_r.
  destruct (Ascii.eqb c "_"); [reflexivity | exact Hc].
Qed.

Lemma title_from_length (b : bool) (s : string) :
  String.length (title_from b s) = String.length s.
Proof.
  revert b. induction s as [|c s IH]; intros b; [reflexivity|].
  cbn [title_from].
  destruct (islower c); [|destruct (isupper c)]; cbn [String.length];
    now rewrite IH.
Qed.

Lemma title_from_keeps_out (b : bool) (s : string) :
  contains "_" s = false -> contains "_" (title_from b s) = false.
Proof.
  revert b. induction s as [|c s IH]; intros b H; [reflexivity|].
  cbn [contains] in H. apply orb_false_iff in H. destruct H as [Hc Hs].
  cbn [title_from].
  destruct (islower c) eqn:El; [|destruct (isupper c) eqn:Eu];
    cbn [contains]; rewrite (IH _ Hs), orb_false_r.
  - destruct b; [exact Hc | apply (upper_of_lower c El)].
  - destruct b; [apply (lower_of_upper c Eu) | exact Hc].
  - exact Hc.
Qed.

Lemma title_from_newline_free (b : bool) (s : string) :
  newline_free s -> newline_free (title_from b s).
Proof.
  unfold newline_free.
  revert b. induction s as [|c s IH]; intros b H; [reflexivity|].
  cbn [contains] in H. apply orb_false_iff in H. destruct H as [Hc Hs].
  cbn [title_from].
  destruct (islower c) eqn:El; [|destruct (isupper c) eqn:Eu];
    cbn [contains]; rewrite (IH _ Hs), orb_false_r.
  - destruct b; [exact Hc | apply (upper_of_lower c El)].
  - destruct b; [apply (lower_of_upper c Eu) | exact Hc].
  - exact Hc.
Qed.

Lemma title_from_ascii (b : bool) (s : string) :
  ascii_text s = true -> ascii_text (title_from b s) = true.
Proof.
  revert b. induction s as [|c s IH]; intros b H; [reflexivity|].
  cbn [ascii_text] in H. apply andb_true_iff in H. destruct H as [Hc Hs].
  cbn [title_from].
  destruct (islower c) eqn:El; [|destruct (isupper c) eqn:Eu];
    cbn [ascii_text]; rewrite (IH _ Hs), andb_true_r.
  - destruct b; [exact Hc | apply (upper_of_lower c El)].
  - destruct b; [apply (lower_of_upper c Eu) | exact Hc].
  - exact Hc.
Qed.

Lemma title_from_titled (b : bool) (s : string) :
  titled_from b (title_from b s) = true.
Proof.
  revert b. induction s as [|c s IH]; intros b; [reflexivity|].
  cbn [title_from].
  destruct (islower c) eqn:El; [|destruct (isupper c) eqn:Eu].
  - destruct b; cbn [titled_from].
    + now rewrite El, IH.
    + destruct (upper_of_lower c El) as [H1 [H2 _]].
      now rewrite H1, H2, IH.
  - destruct b; cbn [titled_from].
    + destruct (lower_of_upper c Eu) as [H1 _]. now rewrite H1, IH.
    + now rewrite El, Eu, IH.
  - cbn [titled_from]. now rewrite El, Eu, IH.
Qed.

(** For a requirement name of ASCII characters, the printed label,
    [name.replace('_', ' ').title()], has the length of the name, holds
    no underscore, and is in title case. *)
Theorem label_shape (requirement : string) :
  ascii_text requirement = true ->
  let label := title (replace "_" " " requirement) in
  String.length label = String.length requirement
  /\ contains "_" label = false
  /\ titled_from false label = true.
Proof.
  intros _. cbv zeta. unfold title. split; [|split].
  - now rewrite title_from_length, replace_length.
  - apply title_from_keeps_out, replace_removes.
  - apply title_from_titled.
Qed.

Lemma label_shape_witness :
  let label := title (replace "_" " " "single_media_query") in
  String.length label = String.length "single_media_query"
  /\ contains "_" label = false
  /\ titled_from false label = true.
Proof. apply (label_shape "single_media_query"). reflexivity. Defined.

(** ** The final loop *)

Lemma print_details_as_lines (its : list (string * bool)) (w : World) :
  print_details (map (fun kb => (fst kb, VBool (snd kb))) its) w
  = print_lines (map (fun kb => detail_line (fst kb) (snd kb)) its) w.
Proof.
  revert w. induction its as [|[k b] its IH]; intros w; [reflexivity|].
  cbn [map fst snd].
  change (print_details ((k, VBool b) :: ?l))
    with (print_detail k (VBool b) ;; print_details l).
  change (print_lines (?s :: ?l)) with (print s ;; print_lines l).
  unfold bind.
  change (print_detail k (VBool b) w) with (print (detail_line k b) w).
  destruct (print (detail_line k b) w) as [[[]|err] w']; [apply IH | reflexivity].
Qed.

Lemma encodable_marked (e : Encoding) (b : bool) (s : string) :
  ascii_text s = true ->
  encodable e (icon b ++ s) = can_encode e (if b then check_mark else cross_mark).
Proof.
  intros H. unfold encodable, unencodable.
  destruct b.
  - change (code_points (icon true ++ s)) with (check_mark :: code_points s).
    cbn [find]. destruct (can_encode e check_mark); [|reflexivity].
    cbn [negb]. fold (unencodable e s). now rewrite (unencodable_ascii e s H).
  - change (code_points (icon false ++ s)) with (cross_mark :: code_points s).
    cbn [find]. destruct (can_encode e cross_mark); [|reflexivity].
    cbn [negb]. fold (unencodable e s). now rewrite (unencodable_ascii e s H).
Qed.

Lemma detail_line_encodable (e : Encoding) (k : string) (b : bool) :
  can_encode e check_mark = true ->
  can_encode e cross_mark = true ->
  ascii_text k = true ->
  encodable e (detail_line k b) = true.
Proof.
  intros Hc Hx Hk. unfold detail_line. rewrite encodable_marked.
  - now destruct b.
  - rewrite !ascii_text_append. unfold title.
    rewrite (title_from_ascii _ _ (replace_ascii _ Hk)). now destruct b.
Qed.

Lemma detail_line_newline_free (k : string) (b : bool) :
  newline_free k -> newline_free (detail_line k b).
Proof.
  intros Hk. unfold newline_free, detail_line.
  rewrite !contains_append. unfold title.
  rewrite (title_from_newline_free _ _ (replace_newline_free _ Hk)).
  now destruct b.
Qed.

(** For entries with Boolean statuses and newline-free ASCII names, on a
    stream that has both icons, the loop raises nothing, changes no
    attribute, and prints exactly one [detail_line] per entry, in the
    order of the entries. *)
Theorem print_details_prints (its : list (string * bool)) (w : World) :
  Forall (fun kb => ascii_text (fst kb) = true /\ newline_free (fst kb)) its ->
  can_encode (stdout_encoding w) check_mark = true ->
  can_encode (stdout_encoding w) cross_mark = true ->
  let entries := map (fun kb => (fst kb, VBool (snd kb))) its in
  fst (print_details entries w) = Ok tt
  /\ COLOR_PALETTE (snd (print_details entries w)) = COLOR_PALETTE w
  /\ BREAKPOINTS (snd (print_details entries w)) = BREAKPOINTS w
  /\ self (snd (print_details entries w)) = self w
  /\ exists out,
       stdout (snd (print_details entries w)) = (stdout w ++ out)%string
       /\ lines out = map (fun kb => detail_line (fst kb) (snd kb)) its.
Proof.
  intros Hits Hc Hx. cbv zeta.
  rewrite print_details_as_lines, print_lines_run.
  assert (Hall : forallb (encodable (stdout_encoding w))
                   (map (fun kb => detail_line (fst kb) (snd kb)) its) = true).
  { induction Hits as [|[k b] its [Hk _] _ IH]; [reflexivity|].
    cbn [map forallb fst snd].
    now rewrite (detail_line_encodable _ k b Hc Hx Hk), IH. }
  pose proof (print_lines_result_all _ _ Hall) as Hok.
  rewrite (print_lines_result_ok _ _ Hok), firstn_all, Hok.
  cbn [fst snd wrote COLOR_PALETTE BREAKPOINTS self stdout].
  repeat (split; [reflexivity|]).
  eexists. split; [reflexivity|].
  apply lines_unlines.
  clear Hall Hok. induction Hits as [|[k b] its [_ Hk] _ IH]; constructor.
  - now apply detail_line_newline_free.
  - exact IH.
Qed.

Lemma print_details_prints_witness :
  let its := [("no_javascript", false); ("form_validation", true)] in
  let entries := map (fun kb => (fst kb, VBool (snd kb))) its in
  fst (print_details entries constructed) = Ok tt
  /\ COLOR_PALETTE (snd (print_details entries constructed))
     = COLOR_PALETTE constructed
  /\ BREAKPOINTS (snd (print_details entries constructed))
     = BREAKPOINTS constructed
  /\ self (snd (print_details entries constructed)) = self constructed
  /\ exists out,
       stdout (snd (print_details entries constructed))
         = (stdout constructed ++ out)%string
       /\ lines out = map (fun kb => detail_line (fst kb) (snd kb)) its.
Proof.
  apply (print_details_prints
           [("no_javascript", false); ("form_validation", true)] constructed);
    [repeat constructor | reflexivity | reflexivity].
Defined.
